(** * birdie: the Post model, its form, and the update and payment views

    A shallow embedding of [birdie/models.py], [birdie/forms.py],
    [birdie/admin.py] and [birdie/views.py].  Python strings are sequences
    of Unicode code points, Python exceptions are a result type, the
    database table of posts is a finite map from primary keys to rows, and
    the calls a view makes to its collaborators (the ORM, the charge
    service, the mail backend) thread an explicit state.  The pieces of
    Django the views inherit ([UpdateView], [ModelForm], [CharField],
    [QueryDict], [send_mail], [redirect]) are modelled next to the code
    that uses them and are marked as framework code. *)

From stdpp Require Import gmap strings list fin_maps.
From Stdlib Require Import ZArith Ascii String Lia.

Local Open Scope string_scope.
Local Open Scope list_scope.
Local Open Scope Z_scope.

(** ** Python values *)

Module Py.

(** A [str] is a sequence of code points; [len] counts them. *)
Definition codepoint := N.
Abbreviation str := (list N).

(** A literal of the source, written in ASCII. *)
Definition lit (s : string) : str := N_of_ascii <$> list_ascii_of_string s.

Definition len (s : str) : Z := Z.of_nat (List.length s).

(** The exceptions the code raises or lets through. *)
Inductive exn :=
| Http404
| ValidationError (message : str)
| TypeError
| KeyError (key : string)
| ExternalError (origin : string) (detail : str).

Inductive result (A : Type) :=
| Ok (a : A)
| Raise (e : exn).
Arguments Ok {A} a.
Arguments Raise {A} e.

(** [s[:stop]] for an [int] stop: a negative stop counts from the end,
    and the bound is clipped to the string. *)
Definition slice_stop (n stop : Z) : Z :=
  if stop <? 0 then Z.max 0 (stop + n) else Z.min n stop.

Definition slice_to (s : str) (stop : Z) : str :=
  take (Z.to_nat (slice_stop (len s) stop)) s.

(** [str.isspace] on one code point. *)
Definition isspace (c : codepoint) : bool :=
  ((9 <=? c) && (c <=? 13) || (28 <=? c) && (c <=? 32)
   || (c =? 133) || (c =? 160) || (c =? 5760)
   || (8192 <=? c) && (c <=? 8202)
   || (c =? 8232) || (c =? 8233) || (c =? 8239) || (c =? 8287)
   || (c =? 12288))%N.

Fixpoint lstrip (s : str) : str :=
  match s with
  | c :: s' => if isspace c then lstrip s' else s
  | [] => []
  end.

Definition rstrip (s : str) : str := reverse (lstrip (reverse s)).

Definition strip (s : str) : str := rstrip (lstrip s).

(** The number of bytes of the UTF-8 encoding, for comparison with [len]. *)
Definition utf8_width (c : codepoint) : nat :=
  if (c <? 128)%N then 1%nat
  else if (c <? 2048)%N then 2%nat
  else if (c <? 65536)%N then 3%nat
  else 4%nat.

Definition utf8_len (s : str) : Z :=
  Z.of_nat (foldr (λ c n, (utf8_width c + n)%nat) 0%nat s).

End Py.
Import Py.

(** ** A state and exception monad for the views

    A view runs against a state (the table of posts, or the log of calls
    to the outside) and either answers or raises; the state reached when an
    exception is raised is kept, as nothing in the code rolls it back. *)

Definition M (S A : Type) : Type := S → result A * S.

Definition raise {S A} (e : exn) : M S A := λ s, (Raise e, s).
Definition lift {S A} (r : result A) : M S A := λ s, (r, s).
Definition gets {S A} (f : S → A) : M S A := λ s, (Ok (f s), s).
Definition modify {S} (f : S → S) : M S unit := λ s, (Ok tt, f s).

#[global] Instance M_ret {S} : MRet (M S) := λ A a s, (Ok a, s).
#[global] Instance M_bind {S} : MBind (M S) := λ A B k m s,
  match m s with
  | (Ok a, s') => k a s'
  | (Raise e, s') => (Raise e, s')
  end.

(** ** birdie/models.py *)

Record Post := { pk : Z; body : str }.

(** The table behind [models.Post]: one [body] per primary key. *)
Abbreviation table := (gmap Z (list N)).

Definition get_excerpt (self : Post) (char : Z) : str :=
  slice_to (body self) char.

(** ** birdie/admin.py *)

Definition PostAdmin_excerpt (obj : Post) : str := get_excerpt obj 5.

(** ** birdie/forms.py *)

(** [self.cleaned_data] of a [PostForm]. *)
Abbreviation cleaned := (gmap string (list N)).

(** [PostForm.clean_body]: [dict.get] answers [None] for a missing key, and
    [len(None)] is a [TypeError]. *)
Definition clean_body (cleaned_data : cleaned) : result str :=
  match cleaned_data !! "body" with
  | None => Raise TypeError
  | Some data =>
      if len data <=? 5
      then Raise (ValidationError (lit "Message is too short"))
      else Ok data
  end.

(** ** Framework: requests, forms and generic views

    What the two views use of [django.http], [django.forms] and
    [django.views.generic], for the one-field [PostForm].  The form field
    is Django's [CharField] with its defaults: it strips surrounding
    whitespace and refuses NUL characters.  A view returns a response that
    may still have to be rendered; the handler renders it, and turns what
    is raised on the way into an error page. *)

Module Django.

(** [request.POST]: every key holds the list of values submitted for it. *)
Abbreviation QueryDict := (gmap string (list (list N))).

(** [QueryDict.get(key)]: the last value, [None] without one. *)
Definition QueryDict_get (d : QueryDict) (key : string) : option str :=
  d !! key ≫= last.

(** [request.user]: the anonymous user has no [first_name] attribute. *)
Inductive user :=
| AnonymousUser
| User (first_name : str) (is_superuser : bool).

(** [getattr(user, 'first_name', None)]. *)
Definition getattr_first_name (u : user) : option str :=
  match u with
  | AnonymousUser => None
  | User first_name _ => Some first_name
  end.

Definition is_authenticated (u : user) : bool :=
  match u with AnonymousUser => false | User _ _ => true end.

Record HttpRequest := { request_user : user; POST : QueryDict }.

(** [ProhibitNullCharactersValidator], the validator every [CharField]
    has: the message it raises, if any. *)
Definition ProhibitNullCharactersValidator (value : str) : option str :=
  if bool_decide (0%N ∈ value)
  then Some (lit "Null characters are not allowed.")
  else None.

(** [CharField.clean]: [to_python] (an absent value is the empty string,
    a present one is stripped when [strip] is set), then [validate] (the
    empty string is refused when [required] is set), then
    [run_validators] (skipped for the empty string). *)
Definition CharField_clean (required strip : bool) (raw : option str)
  : result str :=
  let value :=
    match raw with
    | None => []
    | Some v => if strip then Py.strip v else v
    end in
  match value with
  | [] => if required
          then Raise (ValidationError (lit "This field is required."))
          else Ok value
  | _ =>
      match ProhibitNullCharactersValidator value with
      | Some message => Raise (ValidationError message)
      | None => Ok value
      end
  end.

(** The form field a [ModelForm] builds for [body = models.TextField()]:
    the model field is not [blank], so the form field is required, and
    [strip] keeps its default. *)
Definition body_field_clean : option str → result str :=
  CharField_clean true true.

(** What a template is given of a form: the data it is bound to (if any),
    the initial values taken from the instance, and the errors per field. *)
Record Form := {
  form_data : option QueryDict;
  form_initial : gmap string (list N);
  form_errors : gmap string (list (list N))
}.

(** [BoundField.value()]: the submitted text of a bound form, the initial
    value otherwise. *)
Definition field_value (f : Form) (name : string) : option str :=
  match form_data f with
  | Some d => QueryDict_get d name
  | None => form_initial f !! name
  end.

(** [BaseForm._clean_fields] for the one field of [PostForm]: the field's
    own cleaning, then [clean_body] on the cleaned data; a
    [ValidationError] of either becomes the field's error and removes the
    field from the cleaned data, any other exception goes on. *)
Definition PostForm_full_clean (data : QueryDict)
  : result (cleaned * gmap string (list (list N))) :=
  match body_field_clean (QueryDict_get data "body") with
  | Raise (ValidationError m) => Ok (∅, {[ "body" := [m] ]})
  | Raise e => Raise e
  | Ok value =>
      let cleaned_data : cleaned := <[ "body" := value ]> ∅ in
      match clean_body cleaned_data with
      | Ok value' => Ok (<[ "body" := value' ]> cleaned_data, ∅)
      | Raise (ValidationError m) =>
          Ok (delete "body" cleaned_data, {[ "body" := [m] ]})
      | Raise e => Raise e
      end
  end.

(** [form.is_valid()]: bound and without errors. *)
Definition is_valid (errors : gmap string (list (list N))) : bool :=
  bool_decide (errors = ∅).

Inductive HttpResponse :=
| TemplateResponse (template_name : string) (form : Form)
| HttpResponseRedirect (url : string).

Definition status_code (r : HttpResponse) : Z :=
  match r with
  | TemplateResponse _ _ => 200
  | HttpResponseRedirect _ => 302
  end.

(** The status of what a view returns or raises, before anything is
    rendered: the [status_code] of the response (what the tests of the
    repository read), 404 for [Http404], 500 for any other exception. *)
Definition answer_status (r : result HttpResponse) : Z :=
  match r with
  | Ok resp => status_code resp
  | Raise Http404 => 404
  | Raise _ => 500
  end.

(** Template loading, as the file-system and application-directory
    loaders do it: the name is joined to each template directory and a
    result outside the directory is refused, so a name that starts with a
    slash (an absolute path) is never found; [templates] tells which
    other names the directories hold. *)
Definition loadable (templates : string → bool) (name : string) : bool :=
  match name with
  | String "/" _ => false
  | _ => templates name
  end.

(** What the handler sends back. *)
Inductive failure :=
| TemplateDoesNotExist (name : string)
| Uncaught (e : exn).

Inductive answer :=
| Rendered (template_name : string) (form : Form)
| Redirected (url : string)
| NotFound
| ServerError (cause : failure).

(** [BaseHandler.get_response] around a view: a template response is
    rendered, which needs its template; [Http404] becomes the 404 page and
    anything else that is raised the 500 page. *)
Definition handler_answer (templates : string → bool)
    (r : result HttpResponse) : answer :=
  match r with
  | Ok (TemplateResponse name form) =>
      if loadable templates name then Rendered name form
      else ServerError (TemplateDoesNotExist name)
  | Ok (HttpResponseRedirect url) => Redirected url
  | Raise Http404 => NotFound
  | Raise e => ServerError (Uncaught e)
  end.

Definition answer_code (a : answer) : Z :=
  match a with
  | Rendered _ _ => 200
  | Redirected _ => 302
  | NotFound => 404
  | ServerError _ => 500
  end.

(** [redirect(to)] for a URL. *)
Definition redirect (to : string) : HttpResponse := HttpResponseRedirect to.

(** [SingleObjectMixin.get_object]: the row with this primary key, or
    [Http404]. *)
Definition get_object (key : Z) : M table Post :=
  row ← gets (λ t : table, t !! key);
  match row with
  | Some b => mret {| pk := key; body := b |}
  | None => raise Http404
  end.

(** [ModelForm.save]: the cleaned fields are put on the instance, which is
    written back under its primary key. *)
Definition PostForm_save (instance : Post) (cleaned_data : cleaned)
  : M table Post :=
  let obj := {| pk := pk instance;
                body := default (body instance) (cleaned_data !! "body") |} in
  _ ← modify (λ t : table, <[ pk obj := body obj ]> t);
  mret obj.

(** [UpdateView.get]: fetch the object, answer the template with an unbound
    form whose initial data is the object's. *)
Definition UpdateView_get (template_name : string)
    (request : HttpRequest) (key : Z) : M table HttpResponse :=
  obj ← get_object key;
  mret (TemplateResponse template_name
          {| form_data := None;
             form_initial := {[ "body" := body obj ]};
             form_errors := ∅ |}).

(** [UpdateView.post]: fetch the object, bind the form to [request.POST],
    then [form_valid] (save and redirect to [success_url]) or
    [form_invalid] (answer the template with the bound form). *)
Definition UpdateView_post (template_name success_url : string)
    (request : HttpRequest) (key : Z) : M table HttpResponse :=
  obj ← get_object key;
  '(cleaned_data, errors) ← lift (PostForm_full_clean (POST request));
  if is_valid errors then
    _ ← PostForm_save obj cleaned_data;
    mret (HttpResponseRedirect success_url)
  else
    mret (TemplateResponse template_name
            {| form_data := Some (POST request);
               form_initial := {[ "body" := body obj ]};
               form_errors := errors |}).

End Django.
Import Django.

(** ** Collaborators of the payment view (stripe, django.core.mail) *)

Record ChargeArgs := {
  amount : Z;
  currency : str;
  description : str;
  token : option str
}.

Record EmailMessage := {
  subject : str;
  message : str;
  from_email : str;
  recipient_list : list (list N)
}.

(** What has gone out so far: the calls made to the charge service and the
    messages handed to the mail backend, oldest first. *)
Record World := {
  charge_calls : list ChargeArgs;
  outbox : list EmailMessage
}.

(** [d[key]] on a dict: [KeyError] for a missing key. *)
Definition getitem (d : gmap string (list N)) (key : string) : result str :=
  match d !! key with
  | Some v => Ok v
  | None => Raise (KeyError key)
  end.

(** ** birdie/views.py *)

Definition template_name : string := "/birdie/update.html".
Definition success_url : string := "/".

(** [PostUpdateView.get] is inherited. *)
Definition PostUpdateView_get (request : HttpRequest) (key : Z)
  : M table HttpResponse :=
  UpdateView_get template_name request key.

(** [PostUpdateView.post], with the [post] it calls through [super] left
    open. *)
Definition PostUpdateView_post_with
    (super_post : HttpRequest → Z → M table HttpResponse)
    (request : HttpRequest) (key : Z) : M table HttpResponse :=
  if bool_decide (getattr_first_name (request_user request)
                  = Some (lit "Martin"))
  then raise Http404
  else super_post request key.

(** [PostUpdateView.post]: [super] is [UpdateView] with the class
    attributes of [PostUpdateView]. *)
Definition PostUpdateView_post : HttpRequest → Z → M table HttpResponse :=
  PostUpdateView_post_with (UpdateView_post template_name success_url).

Section Payment.

(** The charge service and the mail backend answer or raise; what they do
    may depend on what has gone out before. *)
Variable Charge_create : World → ChargeArgs → result (gmap string (list N)).
Variable mail_backend : World → EmailMessage → result Z.

(** [stripe.Charge.create] with keyword arguments: one call to the
    service. *)
Definition stripe_Charge_create (args : ChargeArgs)
  : M World (gmap string (list N)) :=
  w ← gets (λ w : World, w);
  _ ← modify (λ w, {| charge_calls := charge_calls w ++ [args];
                      outbox := outbox w |});
  lift (Charge_create w args).

(** [send_mail(subject, message, from_email, recipient_list)]: one message
    to the backend, none when there is no recipient. *)
Definition send_mail (subject message from_email : str)
    (recipient_list : list (list N)) : M World Z :=
  match recipient_list with
  | [] => mret 0
  | _ =>
      let mail := {| subject := subject; message := message;
                     from_email := from_email;
                     recipient_list := recipient_list |} in
      w ← gets (λ w : World, w);
      _ ← modify (λ w, {| charge_calls := charge_calls w;
                          outbox := outbox w ++ [mail] |});
      lift (mail_backend w mail)
  end.

(** ['Charge {} succeeded!'.format(x)] for a string [x]. *)
Definition format_charge (x : str) : str :=
  lit "Charge " ++ x ++ lit " succeeded!".

Definition charge_args (request : HttpRequest) : ChargeArgs :=
  {| amount := 100;
     currency := lit "sgd";
     description := [];
     token := QueryDict_get (POST request) "token" |}.

Definition PaymentView_post (request : HttpRequest) : M World HttpResponse :=
  charge ← stripe_Charge_create (charge_args request);
  charge_id ← lift (getitem charge "id");
  _ ← send_mail (lit "Payment received")
                (format_charge charge_id)
                (lit "server@example.com")
                [lit "admin@example.com"];
  mret (redirect "/").

End Payment.

(** ** Framework: [View.dispatch]

    A class-based view answers a request through the handler named after
    the request's method; [View] itself brings [options], a view with a
    [get] also answers HEAD with it, and a method without a handler is
    answered with 405 and the list of the methods that have one. *)

Module Http.

Inductive method :=
| GET | POST | PUT | PATCH | DELETE | HEAD | OPTIONS | TRACE
| Other (name : string).

(** [View.http_method_names], in upper case. *)
Definition http_method_names : list method :=
  [GET; POST; PUT; PATCH; DELETE; HEAD; OPTIONS; TRACE].

End Http.

(** What [dispatch] returns: the response of a handler of the repository,
    a template rendered without a form, the answer to OPTIONS, or a 405. *)
Inductive Response :=
| Answer (r : HttpResponse)
| Page (template_name : string)
| Allow (methods : list Http.method)
| HttpResponseNotAllowed (methods : list Http.method).

Definition response_status (r : Response) : Z :=
  match r with
  | Answer r => status_code r
  | Page _ => 200
  | Allow _ => 200
  | HttpResponseNotAllowed _ => 405
  end.

(** Whether the view has a handler for a method name: [options] is
    inherited from [View] by every view. *)
Definition has_handler {S} (handler : Http.method → option (M S Response))
    (method : Http.method) : bool :=
  match method with
  | Http.OPTIONS => true
  | Http.Other _ => false
  | _ => bool_decide (is_Some (handler method))
  end.

(** [View._allowed_methods]: the method names that have a handler. *)
Definition allowed_methods {S} (handler : Http.method → option (M S Response))
  : list Http.method :=
  List.filter (has_handler handler) Http.http_method_names.

(** [View.dispatch]: a name outside [http_method_names], or one without a
    handler, goes to [http_method_not_allowed]; [View.options] answers
    with the allowed methods. *)
Definition View_dispatch {S} (handler : Http.method → option (M S Response))
    (method : Http.method) : M S Response :=
  match method with
  | Http.Other _ => mret (HttpResponseNotAllowed (allowed_methods handler))
  | Http.OPTIONS => mret (Allow (allowed_methods handler))
  | _ =>
      match handler method with
      | Some h => h
      | None => mret (HttpResponseNotAllowed (allowed_methods handler))
      end
  end.

(** The handlers of a view: the [get], [post] and [put] it has, and [head]
    as [get] when there is a [get]. *)
Definition handlers {S} (get post put : option (M S Response))
    (method : Http.method) : option (M S Response) :=
  match method with
  | Http.GET | Http.HEAD => get
  | Http.POST => post
  | Http.PUT => put
  | _ => None
  end.

(** [TemplateView]: a [get] that answers the template. *)
Definition TemplateView_dispatch {S} (template_name : string)
    (method : Http.method) : M S Response :=
  View_dispatch (handlers (Some (mret (Page template_name))) None None)
    method.

(** ** birdie/views.py: the two template views and the entry points *)

Definition HomeView_dispatch {S} (request : HttpRequest)
    (method : Http.method) : M S Response :=
  TemplateView_dispatch "birdie/home.html" method.

(** [AdminView.dispatch] under [login_required]: a user who is not
    authenticated is redirected to the login page, whose URL (built from
    the settings and the request's path) is [login_url]. *)
Definition AdminView_dispatch {S} (login_url : HttpRequest → string)
    (request : HttpRequest) (method : Http.method) : M S Response :=
  if is_authenticated (request_user request)
  then TemplateView_dispatch "birdie/admin.html" method
  else mret (Answer (HttpResponseRedirect (login_url request))).

(** A handler of the repository as a handler of [dispatch]. *)
Definition answering {S} (h : M S HttpResponse) : M S Response :=
  r ← h; mret (Answer r).

(** [PostUpdateView]: [get] and [put] come from [UpdateView], and [put]
    calls [self.post]. *)
Definition PostUpdateView_dispatch (request : HttpRequest) (key : Z)
    (method : Http.method) : M table Response :=
  View_dispatch
    (handlers (Some (answering (PostUpdateView_get request key)))
              (Some (answering (PostUpdateView_post request key)))
              (Some (answering (PostUpdateView_post request key))))
    method.

(** [PaymentView] has a [post] only. *)
Definition PaymentView_dispatch
    (Charge_create : World → ChargeArgs → result (gmap string (list N)))
    (mail_backend : World → EmailMessage → result Z)
    (request : HttpRequest) (method : Http.method) : M World Response :=
  View_dispatch
    (handlers None
              (Some (answering
                       (PaymentView_post Charge_create mail_backend request)))
              None)
    method.

(** ** Names for what the statements below speak of *)

Definition too_short : exn := ValidationError (lit "Message is too short").
Definition field_required : exn :=
  ValidationError (lit "This field is required.").
Definition null_characters : exn :=
  ValidationError (lit "Null characters are not allowed.").

Definition is_martin (request : HttpRequest) : Prop :=
  getattr_first_name (request_user request) = Some (lit "Martin").

(** The form [form_invalid] hands to the template. *)
Definition invalid_form (request : HttpRequest) (old message : str) : Form :=
  {| form_data := Some (POST request);
     form_initial := {[ "body" := old ]};
     form_errors := {[ "body" := [message] ]} |}.

(** The form [UpdateView.get] hands to the template. *)
Definition unbound_form (old : str) : Form :=
  {| form_data := None;
     form_initial := {[ "body" := old ]};
     form_errors := ∅ |}.

(** Unfolds a view down to the state it threads. *)
Ltac run_view :=
  unfold PostUpdateView_get, UpdateView_get, UpdateView_post, PostForm_save,
    get_object, gets, modify, raise, lift, mbind, M_bind, mret, M_ret;
  simpl.

(** Unfolds [dispatch] down to the handler it picks. *)
Ltac run_dispatch :=
  unfold PostUpdateView_dispatch, PaymentView_dispatch, AdminView_dispatch,
    HomeView_dispatch, TemplateView_dispatch, View_dispatch, handlers,
    answering, mbind, M_bind, mret, M_ret;
  simpl.

(** The notification of a charge. *)
Definition payment_mail (charge_id : str) : EmailMessage :=
  {| subject := lit "Payment received";
     message := format_charge charge_id;
     from_email := lit "server@example.com";
     recipient_list := [lit "admin@example.com"] |}.

Definition charged (w : World) (args : ChargeArgs) : World :=
  {| charge_calls := charge_calls w ++ [args]; outbox := outbox w |}.

Definition mailed (w : World) (mail : EmailMessage) : World :=
  {| charge_calls := charge_calls w; outbox := outbox w ++ [mail] |}.

(** ** Test data: a table with one post, requests, and collaborators

    [a_table] holds the post the view tests create; [post_request] is
    [RequestFactory().post('/', data=fields)] with [request.user] set;
    [test_stripe] answers every call with the charge [{'id': '234'}],
    [declining_stripe] raises, and [locmem_backend] takes every message. *)

Definition a_table : table := {[ 1 := lit "An older post body" ]}.

Definition post_request (u : user) (fields : list (string * str))
  : HttpRequest :=
  {| request_user := u;
     POST := list_to_map (prod_map id (λ v, [v]) <$> fields) |}.

Definition empty_world : World := {| charge_calls := []; outbox := [] |}.

Definition test_stripe (w : World) (args : ChargeArgs)
  : result (gmap string (list N)) :=
  Ok {[ "id" := lit "234" ]}.

Definition declining_stripe (w : World) (args : ChargeArgs)
  : result (gmap string (list N)) :=
  Raise (ExternalError "stripe" (lit "Your card was declined.")).

Definition locmem_backend (w : World) (mail : EmailMessage) : result Z :=
  Ok 1.

(** A charge service whose answer has no [id], and a mail backend that
    cannot connect. *)
Definition idless_stripe (w : World) (args : ChargeArgs)
  : result (gmap string (list N)) :=
  Ok {[ "object" := lit "charge" ]}.

Definition refusing_backend (w : World) (mail : EmailMessage) : result Z :=
  Raise (ExternalError "smtplib" (lit "Connection refused")).

(** * Properties *)

(** ** The repository's tests *)

Example test_get_excerpt :
  get_excerpt {| pk := 1; body := lit "Hello World!" |} 5 = lit "Hello".
Proof. reflexivity. Qed.

Example test_admin_excerpt :
  PostAdmin_excerpt {| pk := 1; body := lit "Hello World" |} = lit "Hello".
Proof. reflexivity. Qed.

Example test_form_too_short :
  PostForm_full_clean {[ "body" := [lit "Hello"] ]}
  = Ok (∅, {[ "body" := [lit "Message is too short"] ]}).
Proof. vm_compute. reflexivity. Qed.

Example test_form_no_data :
  PostForm_full_clean ∅
  = Ok (∅, {[ "body" := [lit "This field is required."] ]}).
Proof. vm_compute. reflexivity. Qed.

Example test_form_long_enough :
  PostForm_full_clean {[ "body" := [lit "Hello World!!!!!!!!!!!!"] ]}
  = Ok ({[ "body" := lit "Hello World!!!!!!!!!!!!" ]}, ∅).
Proof. vm_compute. reflexivity. Qed.

Example test_get :
  answer_status (PostUpdateView_get (post_request AnonymousUser []) 1
                   a_table).1 = 200.
Proof. reflexivity. Qed.

Example test_security :
  PostUpdateView_post (post_request (User (lit "Martin") false) []) 1 a_table
  = (Raise Http404, a_table).
Proof. reflexivity. Qed.

Example test_post :
  PostUpdateView_post
    (post_request AnonymousUser [("body", lit "New Body Text!")]) 1 a_table
  = (Ok (HttpResponseRedirect "/"), {[ 1 := lit "New Body Text!" ]}).
Proof. vm_compute. reflexivity. Qed.

(** ** Python strings *)

Lemma len_nonneg (s : str) : 0 ≤ len s.
Proof. unfold len. lia. Qed.

Lemma len_nil_iff (s : str) : len s = 0 ↔ s = [].
Proof.
  unfold len. destruct s as [|c s]; simpl; split; intros H;
    try done; lia.
Qed.

Lemma lstrip_length (s : str) : (List.length (lstrip s) ≤ List.length s)%nat.
Proof.
  induction s as [|c s IH]; simpl; [lia|].
  destruct (isspace c); simpl; lia.
Qed.

Lemma rstrip_length (s : str) : (List.length (rstrip s) ≤ List.length s)%nat.
Proof.
  unfold rstrip. rewrite length_reverse.
  etrans; [apply lstrip_length|]. by rewrite length_reverse.
Qed.

Lemma strip_len (s : str) : len (strip s) ≤ len s.
Proof.
  unfold strip, len.
  pose proof (rstrip_length (lstrip s)). pose proof (lstrip_length s). lia.
Qed.

(** A string that neither starts nor ends with whitespace is its own
    [strip]. *)
Lemma lstrip_id (c : codepoint) (s : str) :
  isspace c = false → lstrip (c :: s) = c :: s.
Proof. intros H. simpl. by rewrite H. Qed.

Lemma slice_to_take (s : str) (n : nat) :
  slice_to s (Z.of_nat n) = take (n `min` List.length s) s.
Proof.
  unfold slice_to, slice_stop, len.
  destruct (Z.ltb_spec (Z.of_nat n) 0) as [?|_]; [lia|].
  replace (Z.to_nat (Z.of_nat (List.length s) `min` Z.of_nat n))
    with (n `min` List.length s)%nat by lia.
  done.
Qed.

(** ** birdie/models.py: the excerpt *)

(** A negative bound counts from the end, as Python's slices do. *)
Example get_excerpt_negative :
  get_excerpt {| pk := 1; body := lit "Hello World!" |} (-7) = lit "Hello"
  ∧ get_excerpt {| pk := 1; body := lit "Hello" |} (-9) = [].
Proof. split; reflexivity. Qed.

(** C9. For every post and every natural number [n], [get_excerpt n] is the
    first [min n (length body)] characters of the body: it is a prefix of
    the body, it has that length, and it is the whole body as soon as [n]
    reaches the body's length. *)
Theorem get_excerpt_prefix (p : Post) (n : nat) :
  get_excerpt p (Z.of_nat n) = take (n `min` List.length (body p)) (body p)
  ∧ List.length (get_excerpt p (Z.of_nat n)) = (n `min` List.length (body p))%nat
  ∧ get_excerpt p (Z.of_nat n) `prefix_of` body p
  ∧ (len (body p) ≤ Z.of_nat n → get_excerpt p (Z.of_nat n) = body p).
Proof.
  unfold get_excerpt. rewrite slice_to_take.
  split_and!.
  - done.
  - rewrite length_take. lia.
  - apply prefix_take.
  - unfold len. intros Hn. apply take_ge. lia.
Qed.

(** ** birdie/forms.py: the validator *)

Lemma clean_body_some (cleaned_data : cleaned) (data : str) :
  cleaned_data !! "body" = Some data →
  clean_body cleaned_data
  = if len data <=? 5 then Raise too_short else Ok data.
Proof. intros H. unfold clean_body. by rewrite H. Qed.

Lemma body_field_clean_none :
  body_field_clean None = Raise field_required.
Proof. reflexivity. Qed.

Lemma body_field_clean_some (b : str) :
  body_field_clean (Some b)
  = if bool_decide (strip b = []) then Raise field_required
    else if bool_decide (0%N ∈ strip b) then Raise null_characters
    else Ok (strip b).
Proof.
  unfold body_field_clean, CharField_clean, ProhibitNullCharactersValidator.
  destruct (strip b) as [|c s]; [by case_bool_decide|].
  rewrite (bool_decide_eq_false_2 (c :: s = [])) by done.
  by case_bool_decide.
Qed.

(** The form never lets an exception through: a missing, empty or blank
    body is refused as required, a body with a NUL character for that, a
    stripped body of at most five characters as too short, and any other
    body is the cleaned data. *)
Lemma PostForm_full_clean_cases (data : QueryDict) :
  PostForm_full_clean data
  = match QueryDict_get data "body" with
    | None => Ok (∅, {[ "body" := [lit "This field is required."] ]})
    | Some b =>
        if bool_decide (strip b = [])
        then Ok (∅, {[ "body" := [lit "This field is required."] ]})
        else if bool_decide (0%N ∈ strip b)
        then Ok (∅, {[ "body" := [lit "Null characters are not allowed."] ]})
        else if len (strip b) <=? 5
        then Ok (∅, {[ "body" := [lit "Message is too short"] ]})
        else Ok ({[ "body" := strip b ]}, ∅)
    end.
Proof.
  unfold PostForm_full_clean.
  destruct (QueryDict_get data "body") as [b|]; [|done].
  rewrite body_field_clean_some. case_bool_decide; [done|].
  case_bool_decide; [done|].
  rewrite (clean_body_some _ (strip b)) by apply lookup_insert_eq.
  destruct (len (strip b) <=? 5); unfold too_short.
  - by rewrite delete_insert_eq, delete_empty.
  - by rewrite insert_insert_eq, insert_empty.
Qed.

Lemma utf8_width_pos (c : codepoint) : (1 ≤ utf8_width c)%nat.
Proof. unfold utf8_width. repeat case_match; lia. Qed.

Lemma len_le_utf8_len (s : str) : len s ≤ utf8_len s.
Proof.
  unfold len, utf8_len. apply inj_le.
  induction s as [|c s IH]; simpl; [lia|].
  pose proof (utf8_width_pos c). lia.
Qed.

(** Three two-byte characters: six bytes, three code points, too short. *)
Example clean_body_counts_code_points :
  utf8_len [233; 233; 233]%N = 6
  ∧ clean_body {[ "body" := [233; 233; 233]%N ]} = Raise too_short.
Proof. split; reflexivity. Qed.

(** C4, as the claim has it, fails on a missing input: without a [body] in
    the cleaned data [clean_body] raises [TypeError], not a
    [ValidationError]; and the form refuses a request without a body as
    required, not as too short. *)
Lemma clean_body_missing_input :
  clean_body ∅ = Raise TypeError
  ∧ clean_body ∅ ≠ Raise too_short
  ∧ PostForm_full_clean ∅
    = Ok (∅, {[ "body" := [lit "This field is required."] ]}).
Proof. split_and!; done. Qed.

(** C4, amended. On a cleaned body that is present, [clean_body] returns it
    unchanged exactly when it is longer than five code points and raises
    [ValidationError "Message is too short"] exactly when it has at most
    five (the empty string included); [len] counts code points.  A request
    without a body is refused by the form's required check. *)
Theorem clean_body_exactly (cleaned_data : cleaned) (data : str) :
  cleaned_data !! "body" = Some data →
  (clean_body cleaned_data = Ok data ↔ 5 < len data)
  ∧ (clean_body cleaned_data
     = Raise (ValidationError (lit "Message is too short")) ↔ len data ≤ 5)
  ∧ len data = Z.of_nat (List.length data)
  ∧ (∀ d : QueryDict, QueryDict_get d "body" = None →
       PostForm_full_clean d
       = Ok (∅, {[ "body" := [lit "This field is required."] ]})).
Proof.
  intros Hdata. rewrite (clean_body_some _ _ Hdata).
  split_and!.
  - destruct (Z.leb_spec (len data) 5); split; intros ?; first [done | lia].
  - destruct (Z.leb_spec (len data) 5); split; intros ?; first [done | lia].
  - done.
  - intros d Hd. rewrite PostForm_full_clean_cases. by rewrite Hd.
Qed.

Lemma clean_body_exactly_witness :
  ((clean_body {[ "body" := lit "Hello World!!!!!!!!!!!!" ]}
    = Ok (lit "Hello World!!!!!!!!!!!!")
    ↔ 5 < len (lit "Hello World!!!!!!!!!!!!"))
   ∧ (clean_body {[ "body" := lit "Hello World!!!!!!!!!!!!" ]}
      = Raise (ValidationError (lit "Message is too short"))
      ↔ len (lit "Hello World!!!!!!!!!!!!") ≤ 5))
  ∧ ((clean_body {[ "body" := [] ]} = Ok [] ↔ 5 < len [])
     ∧ (clean_body {[ "body" := [] ]}
        = Raise (ValidationError (lit "Message is too short"))
        ↔ len [] ≤ 5)).
Proof.
  split.
  - pose proof (clean_body_exactly
                  {[ "body" := lit "Hello World!!!!!!!!!!!!" ]}
                  (lit "Hello World!!!!!!!!!!!!") eq_refl) as (H1 & H2 & _).
    exact (conj H1 H2).
  - pose proof (clean_body_exactly {[ "body" := [] ]} [] eq_refl)
      as (H1 & H2 & _).
    exact (conj H1 H2).
Defined.

(** ** birdie/views.py: the update view *)

Lemma is_valid_empty : is_valid ∅ = true.
Proof. done. Qed.

Lemma is_valid_error (message : str) :
  is_valid {[ "body" := [message] ]} = false.
Proof.
  unfold is_valid. apply bool_decide_eq_false, map_non_empty_singleton.
Qed.

Lemma post_martin (super_post : HttpRequest → Z → M table HttpResponse)
    (request : HttpRequest) (key : Z) (t : table) :
  is_martin request →
  PostUpdateView_post_with super_post request key t = (Raise Http404, t).
Proof.
  unfold is_martin, PostUpdateView_post_with. intros H.
  by rewrite bool_decide_eq_true_2.
Qed.

Lemma post_not_martin (request : HttpRequest) (key : Z) (t : table) :
  ¬ is_martin request →
  PostUpdateView_post request key t
  = UpdateView_post template_name success_url request key t.
Proof.
  unfold is_martin, PostUpdateView_post, PostUpdateView_post_with. intros H.
  by rewrite bool_decide_eq_false_2.
Qed.

Lemma anonymous_not_martin (request : HttpRequest) :
  is_authenticated (request_user request) = false → ¬ is_martin request.
Proof. unfold is_martin. by destruct (request_user request). Qed.

Lemma UpdateView_post_absent (tn su : string) (request : HttpRequest)
    (key : Z) (t : table) :
  t !! key = None →
  UpdateView_post tn su request key t = (Raise Http404, t).
Proof. intros H. run_view. by rewrite H. Qed.

(** What the inherited [post] does to a post that exists. *)
Lemma UpdateView_post_present (tn su : string) (request : HttpRequest)
    (key : Z) (t : table) (old : str) :
  t !! key = Some old →
  UpdateView_post tn su request key t
  = match QueryDict_get (POST request) "body" with
    | None =>
        (Ok (TemplateResponse tn
               (invalid_form request old (lit "This field is required."))), t)
    | Some b =>
        if bool_decide (strip b = [])
        then (Ok (TemplateResponse tn
               (invalid_form request old (lit "This field is required."))), t)
        else if bool_decide (0%N ∈ strip b)
        then (Ok (TemplateResponse tn
               (invalid_form request old
                  (lit "Null characters are not allowed."))), t)
        else if len (strip b) <=? 5
        then (Ok (TemplateResponse tn
               (invalid_form request old (lit "Message is too short"))), t)
        else (Ok (HttpResponseRedirect su), <[ key := strip b ]> t)
    end.
Proof.
  intros H. run_view. rewrite H. simpl.
  rewrite PostForm_full_clean_cases.
  destruct (QueryDict_get (POST request) "body") as [b|].
  - case_bool_decide.
    { by rewrite is_valid_error. }
    case_bool_decide.
    { by rewrite is_valid_error. }
    destruct (len (strip b) <=? 5).
    { by rewrite is_valid_error. }
    rewrite is_valid_empty. simpl. by rewrite lookup_singleton_eq.
  - by rewrite is_valid_error.
Qed.

(** On a post that exists the inherited [post] always answers. *)
Lemma UpdateView_post_answers (tn su : string) (request : HttpRequest)
    (key : Z) (t : table) (old : str) :
  t !! key = Some old →
  ∃ resp t', UpdateView_post tn su request key t = (Ok resp, t').
Proof.
  intros H. rewrite (UpdateView_post_present _ _ _ _ _ _ H).
  repeat case_match; eauto.
Qed.

(** C1. A requester whose first name is "Martin" gets [Http404] (a 404)
    from the submit path, whatever the post and the submitted body; any
    other requester passes the gate: the request is handled by the
    inherited [post], which answers whenever the post exists.  A
    requester who is not authenticated is such a requester. *)
Theorem only_martin_is_denied (request : HttpRequest) (key : Z) (t : table) :
  (is_martin request →
     PostUpdateView_post request key t = (Raise Http404, t)
     ∧ answer_status (PostUpdateView_post request key t).1 = 404)
  ∧ (¬ is_martin request →
     PostUpdateView_post request key t
     = UpdateView_post template_name success_url request key t
     ∧ (∀ old, t !! key = Some old →
          ∃ resp t', PostUpdateView_post request key t = (Ok resp, t')))
  ∧ (is_authenticated (request_user request) = false →
     ¬ is_martin request).
Proof.
  split_and!.
  - intros H. unfold PostUpdateView_post. by rewrite post_martin.
  - intros H. rewrite post_not_martin by done. split; [done|].
    intros old Hold. by eapply UpdateView_post_answers.
  - apply anonymous_not_martin.
Qed.

Lemma only_martin_is_denied_witness :
  PostUpdateView_post
    (post_request (User (lit "Martin") false)
       [("body", lit "New Body Text!")]) 1 a_table
  = (Raise Http404, a_table)
  ∧ PostUpdateView_post
      (post_request AnonymousUser [("body", lit "New Body Text!")]) 1 a_table
    = UpdateView_post template_name success_url
        (post_request AnonymousUser [("body", lit "New Body Text!")])
        1 a_table.
Proof.
  split.
  - destruct (only_martin_is_denied
                (post_request (User (lit "Martin") false)
                   [("body", lit "New Body Text!")]) 1 a_table)
      as (Hdenied & _ & _).
    apply Hdenied. reflexivity.
  - destruct (only_martin_is_denied
                (post_request AnonymousUser [("body", lit "New Body Text!")])
                1 a_table)
      as (_ & _ & Hanonymous).
    apply post_not_martin, Hanonymous. reflexivity.
Defined.

(** C10. For a requester named "Martin" the submit path raises [Http404]
    before anything else: whatever the inherited [post] would do, whether
    or not a post with this key exists, whatever was submitted; the table
    is left as it was. *)
Theorem martin_denied_before_lookup
    (super_post : HttpRequest → Z → M table HttpResponse)
    (request : HttpRequest) (key : Z) (t : table) :
  is_martin request →
  PostUpdateView_post_with super_post request key t = (Raise Http404, t)
  ∧ PostUpdateView_post request key t = (Raise Http404, t)
  ∧ answer_status (PostUpdateView_post request key t).1 = 404.
Proof.
  intros H. unfold PostUpdateView_post. by rewrite !post_martin.
Qed.

Lemma martin_denied_before_lookup_witness :
  (∅ : table) !! 7 = None
  ∧ PostUpdateView_post
      (post_request (User (lit "Martin") false) []) 7 ∅
    = (Raise Http404, ∅).
Proof.
  split; [reflexivity|].
  apply (martin_denied_before_lookup
           (UpdateView_post template_name success_url)
           (post_request (User (lit "Martin") false) []) 7 ∅).
  reflexivity.
Defined.

(** The read path asks nothing about the requester: for a post that
    exists the view returns the unbound form whose body field shows the
    post's current body, for every requester ("Martin" included); it
    raises [Http404] exactly when no post has the key; the table is left as
    it was. *)
Lemma get_returns_unbound_form (request : HttpRequest) (key : Z)
    (t : table) :
  (∀ b, t !! key = Some b →
     PostUpdateView_get request key t
     = (Ok (TemplateResponse template_name (unbound_form b)), t)
     ∧ field_value (unbound_form b) "body" = Some b)
  ∧ ((PostUpdateView_get request key t).1 = Raise Http404 ↔ t !! key = None)
  ∧ (PostUpdateView_get request key t).2 = t
  ∧ (∀ request', PostUpdateView_get request' key t
                 = PostUpdateView_get request key t).
Proof.
  split_and!.
  - intros b Hb. run_view. rewrite Hb. simpl. by split_and!.
  - run_view. destruct (t !! key); simpl; split; done.
  - run_view. by destruct (t !! key).
  - done.
Qed.

Lemma template_name_not_loadable (templates : string → bool) :
  loadable templates template_name = false.
Proof. reflexivity. Qed.

(** C5. For a post that exists, a GET by any requester makes the view
    return the pre-filled form for the template "/birdie/update.html"; no
    loader finds a name that starts with a slash, so the handler answers
    with the 500 page and not with the rendered form.  The same view under
    a template name that can be loaded is answered with the rendered,
    pre-filled form. *)
Theorem get_cannot_render (templates : string → bool)
    (request : HttpRequest) (key : Z) (t : table) (b : str) :
  t !! key = Some b →
  PostUpdateView_get request key t
  = (Ok (TemplateResponse "/birdie/update.html" (unbound_form b)), t)
  ∧ handler_answer templates (PostUpdateView_get request key t).1
    = ServerError (TemplateDoesNotExist "/birdie/update.html")
  ∧ answer_code
      (handler_answer templates (PostUpdateView_get request key t).1) = 500
  ∧ (∀ name, loadable templates name = true →
       handler_answer templates (UpdateView_get name request key t).1
       = Rendered name (unbound_form b)
       ∧ field_value (unbound_form b) "body" = Some b).
Proof.
  intros Hb.
  destruct (get_returns_unbound_form request key t) as (Hget & _).
  destruct (Hget b Hb) as [-> Hvalue]. simpl. split_and!; try done.
  intros name Hname. run_view. rewrite Hb. simpl. by rewrite Hname.
Qed.

Lemma get_cannot_render_witness :
  PostUpdateView_get (post_request AnonymousUser []) 1 a_table
  = (Ok (TemplateResponse "/birdie/update.html"
           (unbound_form (lit "An older post body"))), a_table)
  ∧ handler_answer (λ _, true)
      (PostUpdateView_get (post_request AnonymousUser []) 1 a_table).1
    = ServerError (TemplateDoesNotExist "/birdie/update.html")
  ∧ answer_code
      (handler_answer (λ _, true)
         (PostUpdateView_get (post_request AnonymousUser []) 1 a_table).1)
    = 500.
Proof.
  destruct (get_cannot_render (λ _, true) (post_request AnonymousUser [])
              1 a_table (lit "An older post body")) as (H1 & H2 & H3 & _).
  - reflexivity.
  - exact (conj H1 (conj H2 H3)).
Defined.

Lemma rstrip_id (s : str) (c : codepoint) :
  last s = Some c → isspace c = false → rstrip s = s.
Proof.
  intros [s' ->]%last_Some Hc. unfold rstrip.
  rewrite reverse_snoc, lstrip_id by done.
  by rewrite reverse_cons, reverse_involutive.
Qed.

(** A body that neither starts nor ends with whitespace is left as it is. *)
Lemma strip_id (s : str) (first final : codepoint) :
  head s = Some first → isspace first = false →
  last s = Some final → isspace final = false →
  strip s = s.
Proof.
  intros Hhd Hfirst Hlast Hfinal. unfold strip.
  destruct s as [|c s]; [done|]. simplify_eq/=.
  rewrite Hfirst. by eapply rstrip_id.
Qed.

Example strip_new_body_text : strip (lit "New Body Text!") = lit "New Body Text!".
Proof. reflexivity. Qed.

(** Six characters are submitted, five are left to validate. *)
Example padded_hello_is_too_short :
  PostUpdateView_post
    (post_request AnonymousUser [("body", lit "Hello ")]) 1 a_table
  = (Ok (TemplateResponse template_name
           (invalid_form (post_request AnonymousUser [("body", lit "Hello ")])
              (lit "An older post body") (lit "Message is too short"))),
     a_table).
Proof. vm_compute. reflexivity. Qed.

(** C2, as the claim has it, fails on a body with surrounding whitespace:
    the validator accepts the submitted text as it is, the view redirects,
    but what is stored is the stripped text, not the submitted one. *)
Lemma padded_body_is_stripped :
  a_table !! 1 = Some (lit "An older post body")
  ∧ getattr_first_name AnonymousUser ≠ Some (lit "Martin")
  ∧ clean_body {[ "body" := lit " New Body Text!" ]}
    = Ok (lit " New Body Text!")
  ∧ PostUpdateView_post
      (post_request AnonymousUser [("body", lit " New Body Text!")])
      1 a_table
    = (Ok (HttpResponseRedirect "/"), {[ 1 := lit "New Body Text!" ]})
  ∧ ({[ 1 := lit "New Body Text!" ]} : table) !! 1
    ≠ Some (lit " New Body Text!").
Proof. split_and!; try done; vm_compute; congruence. Qed.

(** C2, amended. For a post that exists and a requester not named "Martin"
    (the anonymous user included), a submitted body whose stripped text is
    longer than five characters and has no NUL character is stored
    stripped of its surrounding whitespace, and the answer is a 302
    redirect to "/"; a body without surrounding whitespace, such as "New
    Body Text!", is stored exactly as submitted.  No other post changes. *)
Theorem post_valid_body_persists (templates : string → bool)
    (request : HttpRequest) (key : Z) (t : table) (old b : str) :
  t !! key = Some old →
  ¬ is_martin request →
  QueryDict_get (POST request) "body" = Some b →
  5 < len (strip b) →
  0%N ∉ strip b →
  PostUpdateView_post request key t
  = (Ok (HttpResponseRedirect "/"), <[ key := strip b ]> t)
  ∧ answer_status (PostUpdateView_post request key t).1 = 302
  ∧ handler_answer templates (PostUpdateView_post request key t).1
    = Redirected "/"
  ∧ (PostUpdateView_post request key t).2 !! key = Some (strip b)
  ∧ (∀ k, k ≠ key → (PostUpdateView_post request key t).2 !! k = t !! k)
  ∧ (strip b = b →
     PostUpdateView_post request key t
     = (Ok (HttpResponseRedirect "/"), <[ key := b ]> t)).
Proof.
  intros Hold Hgate Hbody Hlen Hnull.
  assert (PostUpdateView_post request key t
          = (Ok (HttpResponseRedirect "/"), <[ key := strip b ]> t)) as ->.
  { rewrite post_not_martin by done.
    rewrite (UpdateView_post_present _ _ _ _ _ _ Hold), Hbody.
    rewrite bool_decide_eq_false_2.
    - rewrite bool_decide_eq_false_2 by done.
      by destruct (Z.leb_spec (len (strip b)) 5); [lia|].
    - intros Hnil. rewrite Hnil in Hlen. unfold len in Hlen. simpl in Hlen.
      lia. }
  simpl. split_and!; try done.
  - apply lookup_insert_eq.
  - intros k Hk. by apply lookup_insert_ne.
  - by intros ->.
Qed.

Lemma post_valid_body_persists_witness :
  PostUpdateView_post
    (post_request AnonymousUser [("body", lit "New Body Text!")]) 1 a_table
  = (Ok (HttpResponseRedirect "/"), <[ 1 := lit "New Body Text!" ]> a_table)
  ∧ answer_status
      (PostUpdateView_post
         (post_request AnonymousUser [("body", lit "New Body Text!")])
         1 a_table).1 = 302
  ∧ handler_answer (λ _, true)
      (PostUpdateView_post
         (post_request AnonymousUser [("body", lit "New Body Text!")])
         1 a_table).1 = Redirected "/".
Proof.
  destruct (post_valid_body_persists (λ _, true)
              (post_request AnonymousUser [("body", lit "New Body Text!")])
              1 a_table (lit "An older post body") (lit "New Body Text!"))
    as (Hpost & Hstatus & Hanswer & _).
  - reflexivity.
  - intros H. discriminate H.
  - reflexivity.
  - vm_compute. reflexivity.
  - by apply (bool_decide_unpack _).
  - exact (conj Hpost (conj Hstatus Hanswer)).
Defined.

(** A body with a NUL character is refused whatever its length: nothing
    is stored. *)
Example null_body_is_refused :
  PostUpdateView_post
    (post_request AnonymousUser
       [("body", lit "Hello" ++ [0%N] ++ lit "World")]) 1 a_table
  = (Ok (TemplateResponse template_name
           (invalid_form
              (post_request AnonymousUser
                 [("body", lit "Hello" ++ [0%N] ++ lit "World")])
              (lit "An older post body")
              (lit "Null characters are not allowed."))),
     a_table).
Proof. vm_compute. reflexivity. Qed.

(** C3. For a post that exists and a requester not named "Martin", a
    submitted body of at most five characters is not stored: the view
    returns the form bound to the submitted data with an error on the
    [body] field, for the template "/birdie/update.html", and the table is
    as before.  No loader finds that name, so the handler answers with the
    500 page and not with the form; under a template name that can be
    loaded the answer is the rendered form with its error. *)
Theorem short_body_cannot_render (templates : string → bool)
    (request : HttpRequest) (key : Z) (t : table) (old b : str) :
  t !! key = Some old →
  ¬ is_martin request →
  QueryDict_get (POST request) "body" = Some b →
  len b ≤ 5 →
  ∃ message,
    message = (if bool_decide (strip b = [])
               then lit "This field is required."
               else if bool_decide (0%N ∈ strip b)
               then lit "Null characters are not allowed."
               else lit "Message is too short")
    ∧ PostUpdateView_post request key t
      = (Ok (TemplateResponse "/birdie/update.html"
               (invalid_form request old message)), t)
    ∧ form_errors (invalid_form request old message) !! "body"
      = Some [message]
    ∧ field_value (invalid_form request old message) "body" = Some b
    ∧ (PostUpdateView_post request key t).2 !! key = Some old
    ∧ handler_answer templates (PostUpdateView_post request key t).1
      = ServerError (TemplateDoesNotExist "/birdie/update.html")
    ∧ answer_code
        (handler_answer templates (PostUpdateView_post request key t).1)
      = 500
    ∧ (∀ name, loadable templates name = true →
         handler_answer templates
           (UpdateView_post name success_url request key t).1
         = Rendered name (invalid_form request old message)).
Proof.
  intros Hold Hgate Hbody Hlen.
  eexists. split; [reflexivity|].
  assert (∀ name,
            UpdateView_post name success_url request key t
            = (Ok (TemplateResponse name
                     (invalid_form request old
                        (if bool_decide (strip b = [])
                         then lit "This field is required."
                         else if bool_decide (0%N ∈ strip b)
                         then lit "Null characters are not allowed."
                         else lit "Message is too short"))), t)) as Hpost.
  { intros name.
    rewrite (UpdateView_post_present _ _ _ _ _ _ Hold), Hbody.
    case_bool_decide; [done|]. case_bool_decide; [done|].
    pose proof (strip_len b).
    by destruct (Z.leb_spec (len (strip b)) 5); [|lia]. }
  rewrite post_not_martin, Hpost by done. simpl.
  split_and!; try done.
  intros name Hname. rewrite Hpost. simpl. by rewrite Hname.
Qed.

Lemma short_body_cannot_render_witness :
  ∃ message,
    message = lit "Message is too short"
    ∧ PostUpdateView_post
        (post_request AnonymousUser [("body", lit "Hello")]) 1 a_table
      = (Ok (TemplateResponse "/birdie/update.html"
               (invalid_form
                  (post_request AnonymousUser [("body", lit "Hello")])
                  (lit "An older post body") message)), a_table)
    ∧ handler_answer (λ _, true)
        (PostUpdateView_post
           (post_request AnonymousUser [("body", lit "Hello")]) 1 a_table).1
      = ServerError (TemplateDoesNotExist "/birdie/update.html").
Proof.
  destruct (short_body_cannot_render (λ _, true)
              (post_request AnonymousUser [("body", lit "Hello")])
              1 a_table (lit "An older post body") (lit "Hello"))
    as (message & Hmessage & Hpost & _ & _ & _ & Hanswer & _).
  - reflexivity.
  - intros H. discriminate H.
  - reflexivity.
  - vm_compute. discriminate.
  - exists message. exact (conj Hmessage (conj Hpost Hanswer)).
Defined.

(** ** birdie/views.py: the payment view *)

Section PaymentFacts.

Variable Charge_create : World → ChargeArgs → result (gmap string (list N)).
Variable mail_backend : World → EmailMessage → result Z.

(** The view, step by step: the charge call, the lookup of the charge's
    [id], the mail, the redirect; the first exception ends it. *)
Lemma PaymentView_post_run (request : HttpRequest) (w : World) :
  PaymentView_post Charge_create mail_backend request w
  = let w1 := charged w (charge_args request) in
    match Charge_create w (charge_args request) with
    | Raise e => (Raise e, w1)
    | Ok charge =>
        match charge !! "id" with
        | None => (Raise (KeyError "id"), w1)
        | Some charge_id =>
            let w2 := mailed w1 (payment_mail charge_id) in
            match mail_backend w1 (payment_mail charge_id) with
            | Raise e => (Raise e, w2)
            | Ok _ => (Ok (HttpResponseRedirect "/"), w2)
            end
        end
    end.
Proof.
  unfold PaymentView_post, stripe_Charge_create, send_mail, getitem,
    gets, modify, lift, redirect, mbind, M_bind, mret, M_ret.
  simpl. destruct (Charge_create w (charge_args request)) as [charge|e];
    [|done].
  destruct (charge !! "id") as [charge_id|]; [|done].
  by destruct (mail_backend _ _).
Qed.

(** When the charge service answers a charge with an [id] and the mail
    backend takes the message, the view answers. *)
Lemma PaymentView_post_succeeds (request : HttpRequest) (w : World)
    (charge : gmap string (list N)) (charge_id : str) (sent : Z) :
  Charge_create w (charge_args request) = Ok charge →
  charge !! "id" = Some charge_id →
  mail_backend (charged w (charge_args request)) (payment_mail charge_id)
  = Ok sent →
  PaymentView_post Charge_create mail_backend request w
  = (Ok (HttpResponseRedirect "/"),
     mailed (charged w (charge_args request)) (payment_mail charge_id)).
Proof.
  intros Hcharge Hid Hmail. rewrite PaymentView_post_run. simpl.
  by rewrite Hcharge, Hid, Hmail.
Qed.

(** C6. Every POST to the payment view makes exactly one call to the
    charge service, with amount 100, currency "sgd", an empty description
    and, as token, whatever [request.POST.get('token')] is (the submitted
    token, or [None] without one), unchecked; two requests with the same
    token make the same call. *)
Theorem charge_request_is_fixed (request : HttpRequest) (w : World) :
  charge_calls (PaymentView_post Charge_create mail_backend request w).2
  = charge_calls w
    ++ [ {| amount := 100; currency := lit "sgd"; description := [];
            token := QueryDict_get (POST request) "token" |} ]
  ∧ (∀ request',
       QueryDict_get (POST request') "token"
       = QueryDict_get (POST request) "token" →
       charge_calls
         (PaymentView_post Charge_create mail_backend request' w).2
       = charge_calls
           (PaymentView_post Charge_create mail_backend request w).2).
Proof.
  assert (∀ r, charge_calls
                 (PaymentView_post Charge_create mail_backend r w).2
               = charge_calls w ++ [charge_args r]) as Hcalls.
  { intros r. rewrite PaymentView_post_run. simpl.
    repeat case_match; done. }
  split; [apply Hcalls|].
  intros request' Htoken. rewrite !Hcalls. unfold charge_args.
  by rewrite Htoken.
Qed.

(** C7. A payment request that is answered, whatever its token, has made
    the charge, has handed exactly one message to the mail backend (from
    "server@example.com" to "admin@example.com", subject "Payment
    received", body "Charge <id> succeeded!" with the [id] of the charge
    the service returned), and is answered with a 302 redirect to "/". *)
Theorem payment_success_sends_one_mail (request : HttpRequest) (w w' : World)
    (resp : HttpResponse) :
  PaymentView_post Charge_create mail_backend request w = (Ok resp, w') →
  ∃ charge charge_id,
    Charge_create w (charge_args request) = Ok charge
    ∧ charge !! "id" = Some charge_id
    ∧ outbox w'
      = outbox w
        ++ [ {| subject := lit "Payment received";
                message := lit "Charge " ++ charge_id ++ lit " succeeded!";
                from_email := lit "server@example.com";
                recipient_list := [lit "admin@example.com"] |} ]
    ∧ resp = HttpResponseRedirect "/"
    ∧ status_code resp = 302.
Proof.
  rewrite PaymentView_post_run. simpl.
  destruct (Charge_create w (charge_args request)) as [charge|e];
    [|done].
  destruct (charge !! "id") as [charge_id|] eqn:Hid; [|done].
  destruct (mail_backend _ _); [|done].
  intros [= <- <-]. by exists charge, charge_id.
Qed.

(** C8. When the charge service raises, the view raises the same
    exception: no message is handed to the mail backend and no response is
    returned. *)
Theorem charge_failure_propagates (request : HttpRequest) (w : World)
    (e : exn) :
  Charge_create w (charge_args request) = Raise e →
  PaymentView_post Charge_create mail_backend request w
  = (Raise e, charged w (charge_args request))
  ∧ outbox (PaymentView_post Charge_create mail_backend request w).2
    = outbox w
  ∧ (∀ resp, (PaymentView_post Charge_create mail_backend request w).1
             ≠ Ok resp).
Proof.
  intros He. rewrite PaymentView_post_run. simpl. rewrite He.
  by split_and!.
Qed.

End PaymentFacts.

Example test_payment :
  PaymentView_post test_stripe locmem_backend
    (post_request AnonymousUser [("token", lit "123")]) empty_world
  = (Ok (HttpResponseRedirect "/"),
     {| charge_calls :=
          [ {| amount := 100; currency := lit "sgd"; description := [];
               token := Some (lit "123") |} ];
        outbox := [ payment_mail (lit "234") ] |}).
Proof. vm_compute. reflexivity. Qed.

Lemma payment_success_sends_one_mail_witness :
  ∃ charge charge_id,
    test_stripe empty_world
      (charge_args (post_request AnonymousUser [("token", lit "123")]))
    = Ok charge
    ∧ charge !! "id" = Some charge_id
    ∧ outbox (mailed (charged empty_world
                        (charge_args
                           (post_request AnonymousUser
                              [("token", lit "123")])))
                     (payment_mail (lit "234")))
      = outbox empty_world
        ++ [ {| subject := lit "Payment received";
                message := lit "Charge " ++ charge_id ++ lit " succeeded!";
                from_email := lit "server@example.com";
                recipient_list := [lit "admin@example.com"] |} ]
    ∧ HttpResponseRedirect "/" = HttpResponseRedirect "/"
    ∧ status_code (HttpResponseRedirect "/") = 302.
Proof.
  apply (payment_success_sends_one_mail test_stripe locmem_backend
           (post_request AnonymousUser [("token", lit "123")])
           empty_world).
  vm_compute. reflexivity.
Defined.

Lemma charge_failure_propagates_witness :
  PaymentView_post declining_stripe locmem_backend
    (post_request AnonymousUser [("token", lit "123")]) empty_world
  = (Raise (ExternalError "stripe" (lit "Your card was declined.")),
     charged empty_world
       (charge_args (post_request AnonymousUser [("token", lit "123")])))
  ∧ outbox
      (PaymentView_post declining_stripe locmem_backend
         (post_request AnonymousUser [("token", lit "123")]) empty_world).2
    = outbox empty_world
  ∧ (∀ resp,
       (PaymentView_post declining_stripe locmem_backend
          (post_request AnonymousUser [("token", lit "123")])
          empty_world).1
       ≠ Ok resp).
Proof.
  apply (charge_failure_propagates declining_stripe locmem_backend
           (post_request AnonymousUser [("token", lit "123")])
           empty_world).
  reflexivity.
Defined.

(** * Further properties *)

(** ** Stripping *)

(** [lstrip] removes a run of whitespace from the front and stops at the
    first other character. *)
Lemma lstrip_spec (s : str) :
  ∃ ws, s = ws ++ lstrip s
        ∧ Forall (λ c, isspace c = true) ws
        ∧ (lstrip s = [] ∨ ∃ c r, lstrip s = c :: r ∧ isspace c = false).
Proof.
  induction s as [|c s (ws & Hs & Hws & Hhd)]; simpl.
  - exists []. by split_and!; [| |left].
  - destruct (isspace c) eqn:Hc.
    + exists (c :: ws). split_and!; [by rewrite Hs at 1 | by constructor | done].
    + exists []. split_and!; [done | done | right; eauto].
Qed.

Lemma lstrip_nil_iff (s : str) :
  lstrip s = [] ↔ Forall (λ c, isspace c = true) s.
Proof.
  induction s as [|c s IH]; simpl; [done|].
  destruct (isspace c) eqn:Hc.
  - rewrite IH. split; [by constructor | by inversion 1].
  - split; [done | inversion 1; congruence].
Qed.

(** [rstrip] keeps a prefix and drops a run of whitespace from the end. *)
Lemma rstrip_spec (s : str) :
  ∃ ws, s = rstrip s ++ ws
        ∧ Forall (λ c, isspace c = true) ws
        ∧ (rstrip s = [] ∨ ∃ r c, rstrip s = r ++ [c] ∧ isspace c = false).
Proof.
  unfold rstrip.
  destruct (lstrip_spec (reverse s)) as (ws & Hs & Hws & Hhd).
  exists (reverse ws). split_and!.
  - rewrite <- reverse_app, <- Hs. by rewrite reverse_involutive.
  - by apply Forall_reverse.
  - destruct Hhd as [-> | (c & r & -> & Hc)]; [by left|].
    right. exists (reverse r), c. by rewrite reverse_cons.
Qed.

Lemma rstrip_keeps_head (c : N) (s : str) :
  isspace c = false → ∃ r, rstrip (c :: s) = c :: r.
Proof.
  intros Hc. destruct (rstrip_spec (c :: s)) as (ws & Hs & Hws & _).
  destruct (rstrip (c :: s)) as [|c' r] eqn:Hr.
  - simpl in Hs. subst ws. inversion Hws. congruence.
  - simpl in Hs. injection Hs as <- _. eauto.
Qed.

(** What [strip] returns is empty or has a character other than
    whitespace at both ends. *)
Lemma strip_ends (s : str) :
  strip s = []
  ∨ ∃ first final,
      head (strip s) = Some first ∧ isspace first = false
      ∧ last (strip s) = Some final ∧ isspace final = false.
Proof.
  unfold strip.
  destruct (lstrip_spec s) as (_ & _ & _ & [-> | (c & r & -> & Hc)]);
    [by left|].
  right. destruct (rstrip_keeps_head c r Hc) as [r' Hr'].
  destruct (rstrip_spec (c :: r)) as (_ & _ & _ & [Hnil | (r'' & d & Hd & Hsp)]).
  { rewrite Hr' in Hnil. discriminate. }
  exists c, d. split_and!; try done.
  - by rewrite Hr'.
  - rewrite Hd. apply last_snoc.
Qed.

Lemma strip_idemp (s : str) : strip (strip s) = strip s.
Proof.
  destruct (strip_ends s) as [-> | (c & d & Hc & ? & Hd & ?)]; [done|].
  by eapply strip_id.
Qed.

Lemma strip_nil_iff (s : str) :
  strip s = [] ↔ Forall (λ c, isspace c = true) s.
Proof.
  rewrite <- lstrip_nil_iff. unfold strip. split.
  - intros Hnil.
    destruct (lstrip_spec s) as (_ & _ & _ & [? | (c & r & Hs & Hc)]);
      [done|].
    rewrite Hs in Hnil.
    destruct (rstrip_keeps_head c r Hc) as [r' Hr'].
    rewrite Hr' in Hnil. discriminate.
  - by intros ->.
Qed.

(** ** birdie/models.py and birdie/admin.py: more on excerpts *)

(** X1. With a negative bound [-k], [get_excerpt] drops the last [k]
    characters of the body, and is empty when the body has no more than
    [k]. *)
Theorem get_excerpt_negative_bound (p : Post) (char : Z) :
  char < 0 →
  get_excerpt p char = take (Z.to_nat (len (body p) + char)) (body p)
  ∧ (len (body p) + char ≤ 0 → get_excerpt p char = [])
  ∧ (0 ≤ len (body p) + char →
     get_excerpt p char ++ drop (Z.to_nat (len (body p) + char)) (body p)
     = body p
     ∧ len (get_excerpt p char) = len (body p) + char).
Proof.
  intros Hneg. unfold get_excerpt, slice_to, slice_stop.
  destruct (Z.ltb_spec char 0) as [_|?]; [|lia].
  replace (Z.to_nat (0 `max` (char + len (body p))))
    with (Z.to_nat (len (body p) + char)) by lia.
  split_and!; [done | |].
  - intros Hle. by replace (Z.to_nat (len (body p) + char)) with 0%nat by lia.
  - intros Hge. split; [apply take_drop|].
    unfold len in *. rewrite length_take. lia.
Qed.

Lemma get_excerpt_negative_bound_witness :
  get_excerpt {| pk := 1; body := lit "Hello World!" |} (-7) = lit "Hello"
  ∧ get_excerpt {| pk := 1; body := lit "Hello" |} (-9) = [].
Proof.
  split.
  - destruct (get_excerpt_negative_bound
                {| pk := 1; body := lit "Hello World!" |} (-7)) as (H & _);
      [reflexivity|]. exact H.
  - destruct (get_excerpt_negative_bound
                {| pk := 1; body := lit "Hello" |} (-9)) as (H & _);
      [reflexivity|]. exact H.
Defined.

(** X2. An excerpt of an excerpt is the shorter of the two excerpts, and a
    shorter excerpt is a prefix of a longer one. *)
Theorem get_excerpt_twice (p : Post) (n m : nat) :
  get_excerpt {| pk := pk p; body := get_excerpt p (Z.of_nat n) |}
    (Z.of_nat m)
  = get_excerpt p (Z.of_nat (n `min` m))
  ∧ get_excerpt p (Z.of_nat (n `min` m))
    `prefix_of` get_excerpt p (Z.of_nat m).
Proof.
  unfold get_excerpt. simpl. rewrite !slice_to_take.
  rewrite length_take, take_take. split.
  - f_equal. lia.
  - destruct (Nat.min_spec n m) as [[? ->] | [? ->]]; [|done].
    exists (drop (n `min` List.length (body p))
              (take (m `min` List.length (body p)) (body p))).
    rewrite <- (take_drop (n `min` List.length (body p))
                  (take (m `min` List.length (body p)) (body p))) at 1.
    f_equal. rewrite take_take. f_equal. lia.
Qed.

(** X3. The admin list shows at most five characters of a post: a prefix
    of the body, the whole body when it has five characters or fewer, and
    exactly five otherwise. *)
Theorem PostAdmin_excerpt_short (obj : Post) :
  PostAdmin_excerpt obj `prefix_of` body obj
  ∧ len (PostAdmin_excerpt obj) = Z.min 5 (len (body obj))
  ∧ (PostAdmin_excerpt obj = body obj ↔ len (body obj) ≤ 5).
Proof.
  unfold PostAdmin_excerpt, get_excerpt.
  change 5 with (Z.of_nat 5). rewrite slice_to_take.
  assert (len (take (5 `min` List.length (body obj)) (body obj))
          = Z.min (Z.of_nat 5) (len (body obj))) as Hlen.
  { unfold len. rewrite length_take. lia. }
  split_and!.
  - apply prefix_take.
  - done.
  - split.
    + intros Heq. rewrite Heq in Hlen. lia.
    + intros Hle. apply take_ge. unfold len in Hle. lia.
Qed.

(** ** birdie/forms.py: the form around the validator *)

(** X4. Validating a [PostForm] never raises: whatever is submitted, the
    [TypeError] of [clean_body] on a missing body cannot occur, and the
    form ends either with an error on [body] and no cleaned data, or with
    a cleaned [body] and no error. *)
Theorem PostForm_never_raises (data : QueryDict) :
  ∃ cleaned_data errors,
    PostForm_full_clean data = Ok (cleaned_data, errors)
    ∧ ((errors = ∅ ∧ is_Some (cleaned_data !! "body"))
       ∨ (cleaned_data = ∅ ∧ is_Some (errors !! "body"))).
Proof.
  rewrite PostForm_full_clean_cases.
  destruct (QueryDict_get data "body") as [b|];
    repeat case_match; eexists _, _; (split; [reflexivity|]);
    first [ by right; split; [|rewrite lookup_singleton_eq]
          | by left; split; [|rewrite lookup_singleton_eq] ].
Qed.

(** What a valid form was given and holds. *)
Lemma PostForm_valid_inv (data : QueryDict) (cleaned_data : cleaned)
    (errors : gmap string (list (list N))) :
  PostForm_full_clean data = Ok (cleaned_data, errors) →
  is_valid errors = true →
  ∃ b, QueryDict_get data "body" = Some b
       ∧ cleaned_data = {[ "body" := strip b ]}
       ∧ errors = ∅
       ∧ 5 < len (strip b)
       ∧ (0%N ∉ strip b).
Proof.
  rewrite PostForm_full_clean_cases.
  destruct (QueryDict_get data "body") as [b|].
  2: { intros [= <- <-]. by rewrite is_valid_error. }
  case_bool_decide as Hnil.
  { intros [= <- <-]. by rewrite is_valid_error. }
  case_bool_decide as Hnull.
  { intros [= <- <-]. by rewrite is_valid_error. }
  destruct (Z.leb_spec (len (strip b)) 5) as [Hle|Hgt].
  { intros [= <- <-]. by rewrite is_valid_error. }
  intros [= <- <-] _. by exists b.
Qed.

Lemma PostForm_valid_intro (data : QueryDict) (b : str) :
  QueryDict_get data "body" = Some b →
  5 < len (strip b) →
  0%N ∉ strip b →
  PostForm_full_clean data = Ok ({[ "body" := strip b ]}, ∅).
Proof.
  intros Hb Hlen Hnull. rewrite PostForm_full_clean_cases, Hb.
  rewrite bool_decide_eq_false_2.
  - rewrite bool_decide_eq_false_2 by done.
    by destruct (Z.leb_spec (len (strip b)) 5); [lia|].
  - intros Hnil. rewrite Hnil in Hlen. by vm_compute in Hlen.
Qed.

(** X5. A [PostForm] is valid exactly when a body was submitted whose
    stripped text is longer than five characters and has no NUL character;
    its cleaned body is then that stripped text, which has no whitespace
    at either end. *)
Theorem PostForm_valid_iff (data : QueryDict) (cleaned_data : cleaned)
    (errors : gmap string (list (list N))) :
  PostForm_full_clean data = Ok (cleaned_data, errors) →
  (is_valid errors = true
   ↔ ∃ b, QueryDict_get data "body" = Some b
          ∧ 5 < len (strip b) ∧ (0%N ∉ strip b))
  ∧ (is_valid errors = true →
     ∃ b, QueryDict_get data "body" = Some b
          ∧ cleaned_data = {[ "body" := strip b ]}
          ∧ 5 < len (strip b)
          ∧ (0%N ∉ strip b)
          ∧ strip (strip b) = strip b).
Proof.
  intros Hclean. split; [split|].
  - intros Hvalid.
    destruct (PostForm_valid_inv _ _ _ Hclean Hvalid)
      as (b & ? & _ & _ & ? & ?).
    by exists b.
  - intros (b & Hb & Hlen & Hnull).
    rewrite (PostForm_valid_intro _ _ Hb Hlen Hnull) in Hclean.
    injection Hclean as <- <-. apply is_valid_empty.
  - intros Hvalid.
    destruct (PostForm_valid_inv _ _ _ Hclean Hvalid)
      as (b & ? & ? & _ & ? & ?).
    exists b. split_and!; try done. apply strip_idemp.
Qed.

Lemma PostForm_valid_iff_witness :
  (is_valid ∅ = true
   ↔ ∃ b, QueryDict_get {[ "body" := [lit " New Body Text! "] ]} "body"
          = Some b ∧ 5 < len (strip b) ∧ (0%N ∉ strip b))
  ∧ (is_valid ∅ = true →
     ∃ b, QueryDict_get {[ "body" := [lit " New Body Text! "] ]} "body"
          = Some b
          ∧ ({[ "body" := lit "New Body Text!" ]} : cleaned)
            = {[ "body" := strip b ]}
          ∧ 5 < len (strip b)
          ∧ (0%N ∉ strip b)
          ∧ strip (strip b) = strip b).
Proof.
  apply (PostForm_valid_iff {[ "body" := [lit " New Body Text! "] ]}
           {[ "body" := lit "New Body Text!" ]} ∅).
  vm_compute. reflexivity.
Defined.

(** X6. The error of an invalid [PostForm] says what was wrong: "This
    field is required." exactly when no body was submitted or the body is
    whitespace only; "Null characters are not allowed." exactly when the
    stripped body is not empty and has a NUL character; "Message is too
    short" exactly when the stripped body has between one and five
    characters, none of them NUL. *)
Theorem PostForm_error_message (data : QueryDict) :
  (PostForm_full_clean data
   = Ok (∅, {[ "body" := [lit "This field is required."] ]})
   ↔ QueryDict_get data "body" = None
     ∨ ∃ b, QueryDict_get data "body" = Some b
            ∧ Forall (λ c, isspace c = true) b)
  ∧ (PostForm_full_clean data
     = Ok (∅, {[ "body" := [lit "Null characters are not allowed."] ]})
     ↔ ∃ b, QueryDict_get data "body" = Some b ∧ 0%N ∈ strip b)
  ∧ (PostForm_full_clean data
     = Ok (∅, {[ "body" := [lit "Message is too short"] ]})
     ↔ ∃ b, QueryDict_get data "body" = Some b
            ∧ 0 < len (strip b) ≤ 5 ∧ (0%N ∉ strip b)).
Proof.
  rewrite PostForm_full_clean_cases.
  destruct (QueryDict_get data "body") as [b|].
  - pose proof (len_nil_iff (strip b)) as Hlen.
    pose proof (len_nonneg (strip b)) as Hpos.
    pose proof (strip_nil_iff b) as Hall.
    case_bool_decide as Hnil.
    { split_and!; split; try done.
      - intros _. right. exists b. split; [done|]. by apply Hall.
      - intros (b' & [= <-] & Hin). rewrite Hnil in Hin. by inversion Hin.
      - intros (b' & [= <-] & [? ?] & _). apply Hlen in Hnil. lia. }
    case_bool_decide as Hnull.
    { split_and!; split; try done.
      - intros [? | (b' & [= <-] & Hb')]; [done|]. by apply Hall in Hb'.
      - intros _. by exists b.
      - by intros (b' & [= <-] & _ & ?). }
    destruct (Z.leb_spec (len (strip b)) 5) as [Hle|Hgt].
    { split_and!; split; try done.
      - intros [? | (b' & [= <-] & Hb')]; [done|]. by apply Hall in Hb'.
      - by intros (b' & [= <-] & ?).
      - intros _. exists b. split; [done|].
        assert (len (strip b) ≠ 0) by (by rewrite Hlen). split; [lia|done]. }
    split_and!; split; try done.
    + intros [? | (b' & [= <-] & Hb')]; [done|]. by apply Hall in Hb'.
    + by intros (b' & [= <-] & ?).
    + intros (b' & [= <-] & [? ?] & _). lia.
  - split_and!; split; try done.
    + intros _. by left.
    + by intros (b' & ? & _).
    + by intros (b' & ? & _).
Qed.

(** X7. Cleaning is idempotent: submitting the cleaned body of a valid
    form again gives a valid form with the same cleaned data. *)
Theorem PostForm_clean_idempotent (data : QueryDict)
    (cleaned_data : cleaned) (v : str) :
  PostForm_full_clean data = Ok (cleaned_data, ∅) →
  cleaned_data !! "body" = Some v →
  PostForm_full_clean {[ "body" := [v] ]} = Ok (cleaned_data, ∅).
Proof.
  intros Hclean Hv.
  destruct (PostForm_valid_inv data cleaned_data ∅ Hclean is_valid_empty)
    as (b & Hb & -> & _ & Hlen & Hnull).
  rewrite lookup_singleton_eq in Hv. injection Hv as <-.
  rewrite <- (strip_idemp b) at 2.
  apply PostForm_valid_intro.
  - unfold QueryDict_get. by rewrite lookup_singleton_eq.
  - by rewrite strip_idemp.
  - by rewrite strip_idemp.
Qed.

Lemma PostForm_clean_idempotent_witness :
  PostForm_full_clean {[ "body" := [lit "New Body Text!"] ]}
  = Ok ({[ "body" := lit "New Body Text!" ]}, ∅).
Proof.
  apply (PostForm_clean_idempotent {[ "body" := [lit " New Body Text! "] ]}
           {[ "body" := lit "New Body Text!" ]} (lit "New Body Text!")).
  - vm_compute. reflexivity.
  - reflexivity.
Defined.

(** ** birdie/views.py: more on the update view *)

(** The three ways a submission ends. *)
Lemma post_outcome (request : HttpRequest) (key : Z) (t : table) :
  (PostUpdateView_post request key t = (Raise Http404, t)
   ∧ (is_martin request ∨ t !! key = None))
  ∨ (∃ old message,
       ¬ is_martin request ∧ t !! key = Some old
       ∧ (∀ b, QueryDict_get (POST request) "body" = Some b →
               len (strip b) ≤ 5 ∨ 0%N ∈ strip b)
       ∧ PostUpdateView_post request key t
         = (Ok (TemplateResponse template_name
                  (invalid_form request old message)), t))
  ∨ (∃ old b,
       ¬ is_martin request ∧ t !! key = Some old
       ∧ QueryDict_get (POST request) "body" = Some b
       ∧ 5 < len (strip b)
       ∧ (0%N ∉ strip b)
       ∧ PostUpdateView_post request key t
         = (Ok (HttpResponseRedirect "/"), <[ key := strip b ]> t)).
Proof.
  destruct (decide (getattr_first_name (request_user request)
                    = Some (lit "Martin"))) as [Hm|Hm].
  { left. split; [by apply post_martin | by left]. }
  rewrite post_not_martin by done.
  destruct (t !! key) as [old|] eqn:Hold.
  2: { left. split; [by apply UpdateView_post_absent | by right]. }
  rewrite (UpdateView_post_present _ _ _ _ _ _ Hold). right.
  destruct (QueryDict_get (POST request) "body") as [b|].
  2: { left. eexists old, _. by split_and!. }
  case_bool_decide as Hnil.
  { left. eexists old, _. split_and!; try done.
    intros ? [= <-]. left. rewrite Hnil. by vm_compute. }
  case_bool_decide as Hnull.
  { left. eexists old, _. split_and!; try done.
    intros ? [= <-]. by right. }
  destruct (Z.leb_spec (len (strip b)) 5) as [Hle|Hgt].
  { left. eexists old, _. split_and!; try done.
    intros ? [= <-]. by left. }
  right. exists old, b. by split_and!.
Qed.

(** X8. Every submission ends in one of three ways: the view raises
    [Http404] (the 404 page), exactly when the requester is named "Martin"
    or no post has the key; it redirects to "/"; or it returns the form
    for the template "/birdie/update.html", which the handler cannot load,
    so that the answer is the 500 page.  The view raises nothing else, and
    the table is changed by a redirect only. *)
Theorem post_ends_in_three_ways (templates : string → bool)
    (request : HttpRequest) (key : Z) (t : table) :
  ((PostUpdateView_post request key t).1 = Raise Http404
   ↔ is_martin request ∨ t !! key = None)
  ∧ (handler_answer templates (PostUpdateView_post request key t).1
     = NotFound
     ∨ handler_answer templates (PostUpdateView_post request key t).1
       = Redirected "/"
     ∨ ∃ form,
         (PostUpdateView_post request key t).1
         = Ok (TemplateResponse "/birdie/update.html" form)
         ∧ handler_answer templates (PostUpdateView_post request key t).1
           = ServerError (TemplateDoesNotExist "/birdie/update.html"))
  ∧ (handler_answer templates (PostUpdateView_post request key t).1
     = Redirected "/"
     ∨ (PostUpdateView_post request key t).2 = t).
Proof.
  destruct (post_outcome request key t)
    as [[-> Hwhy] | [(old & m & Hm & Hold & _ & ->)
                    | (old & b & Hm & Hold & _ & _ & _ & ->)]]; simpl.
  - split_and!; [done | by left | by right].
  - split_and!; [| right; right; by eexists | by right].
    split; [done|]. intros [? | ?]; [done | congruence].
  - split_and!; [| by right; left | by left].
    split; [done|]. intros [? | ?]; [done | congruence].
Qed.

(** X9. A submission never creates or deletes a post and never touches
    another post: the keys of the table are as before, and so is the body
    under every key other than the one addressed. *)
Theorem post_keeps_other_posts (request : HttpRequest) (key : Z)
    (t : table) :
  dom (PostUpdateView_post request key t).2 = dom t
  ∧ (∀ k, k ≠ key → (PostUpdateView_post request key t).2 !! k = t !! k).
Proof.
  destruct (post_outcome request key t)
    as [[-> _] | [(old & m & _ & _ & _ & ->)
                 | (old & b & _ & Hold & _ & _ & _ & ->)]]; simpl; try done.
  split.
  - rewrite dom_insert_L. apply subseteq_union_1_L, singleton_subseteq_l.
    by eapply elem_of_dom_2.
  - intros k Hk. by apply lookup_insert_ne.
Qed.

(** X10. Submissions keep the stored bodies well formed: if every body in
    the table is longer than five characters and has no whitespace at
    either end, the same holds after any submission. *)
Theorem post_keeps_bodies_valid (request : HttpRequest) (key : Z)
    (t : table) :
  map_Forall (λ _ b, 5 < len b ∧ strip b = b) t →
  map_Forall (λ _ b, 5 < len b ∧ strip b = b)
    (PostUpdateView_post request key t).2.
Proof.
  intros Hall.
  destruct (post_outcome request key t)
    as [[-> _] | [(old & m & _ & _ & _ & ->)
                 | (old & b & _ & _ & _ & Hlen & _ & ->)]]; simpl; try done.
  apply map_Forall_insert_2; [|done].
  split; [done | apply strip_idemp].
Qed.

Lemma post_keeps_bodies_valid_witness :
  map_Forall (λ _ b, 5 < len b ∧ strip b = b)
    (PostUpdateView_post
       (post_request AnonymousUser [("body", lit " New Body Text! ")])
       1 a_table).2.
Proof.
  apply (post_keeps_bodies_valid
           (post_request AnonymousUser [("body", lit " New Body Text! ")])
           1 a_table).
  apply map_Forall_singleton. split; [by vm_compute | reflexivity].
Defined.



(** X12. Submitting is idempotent: the same request sent again to the
    table the first submission left gets the same answer and leaves the
    same table. *)
Theorem post_idempotent (request : HttpRequest) (key : Z) (t : table) :
  PostUpdateView_post request key (PostUpdateView_post request key t).2
  = PostUpdateView_post request key t.
Proof.
  destruct (post_outcome request key t)
    as [[Heq _] | [(old & m & _ & _ & _ & Heq)
                  | (old & b & Hm & Hold & Hb & Hlen & Hnull & Heq)]];
    rewrite Heq; simpl; try done.
  rewrite post_not_martin by done.
  rewrite (UpdateView_post_present _ _ _ _ _ (strip b))
    by apply lookup_insert_eq.
  rewrite Hb, bool_decide_eq_false_2.
  - rewrite bool_decide_eq_false_2 by done.
    destruct (Z.leb_spec (len (strip b)) 5); [lia|].
    by rewrite insert_insert_eq.
  - intros Hnil. rewrite Hnil in Hlen. by vm_compute in Hlen.
Qed.

(** ** birdie/views.py: the views behind [dispatch] *)

(** X13. Of all HTTP methods only POST and PUT can change a post, and only
    for a requester not named "Martin": any request either leaves the table
    as it was, or is a POST or PUT on an existing post by another requester
    that is answered with the redirect to "/". *)
Theorem only_post_and_put_write (request : HttpRequest) (key : Z)
    (method : Http.method) (t : table) :
  (PostUpdateView_dispatch request key method t).2 = t
  ∨ ((method = Http.POST ∨ method = Http.PUT)
     ∧ ¬ is_martin request
     ∧ is_Some (t !! key)
     ∧ (PostUpdateView_dispatch request key method t).1
       = Ok (Answer (HttpResponseRedirect "/"))).
Proof.
  assert (∀ res : result HttpResponse * table,
            res = PostUpdateView_post request key t →
            (match res with
             | (Ok a, s') => (Ok (Answer a), s')
             | (Raise e, s') => (Raise e, s')
             end).2 = t
            ∨ ¬ is_martin request ∧ is_Some (t !! key)
              ∧ (match res with
                 | (Ok a, s') => (Ok (Answer a), s')
                 | (Raise e, s') => (Raise e, s')
                 end).1 = Ok (Answer (HttpResponseRedirect "/")))
    as Hpost.
  { intros res ->.
    destruct (post_outcome request key t)
      as [[-> _] | [(old & m & _ & _ & _ & ->)
                   | (old & b & Hm & Hold & _ & _ & _ & ->)]]; simpl;
      [by left | by left | right]. by rewrite Hold. }
  destruct method; run_dispatch; try (by left).
  - left. run_view. by destruct (t !! key).
  - destruct (Hpost _ eq_refl) as [? | (? & ? & ?)]; [by left|].
    right. split_and!; try done. by left.
  - destruct (Hpost _ eq_refl) as [? | (? & ? & ?)]; [by left|].
    right. split_and!; try done. by right.
  - left. run_view. by destruct (t !! key).
Qed.

(** X14. The payment view charges on POST only: any other method is
    answered (OPTIONS with the allowed methods, the rest with a 405 naming
    POST and OPTIONS) without a call to the charge service or a message to
    the mail backend. *)
Theorem only_post_charges
    (Charge_create : World → ChargeArgs → result (gmap string (list N)))
    (mail_backend : World → EmailMessage → result Z)
    (request : HttpRequest) (method : Http.method) (w : World) :
  method ≠ Http.POST →
  ∃ r, PaymentView_dispatch Charge_create mail_backend request method w
       = (Ok r, w)
       ∧ r = match method with
             | Http.OPTIONS => Allow [Http.POST; Http.OPTIONS]
             | _ => HttpResponseNotAllowed [Http.POST; Http.OPTIONS]
             end
       ∧ (response_status r = 405 ∨ method = Http.OPTIONS).
Proof.
  intros Hmethod.
  destruct method; try done; run_dispatch; eexists;
    (split; [reflexivity|]); (split; [reflexivity|]);
    first [ by left | by right ].
Qed.

Lemma only_post_charges_witness :
  ∃ r, PaymentView_dispatch test_stripe locmem_backend
         (post_request AnonymousUser [("token", lit "123")]) Http.GET
         empty_world
       = (Ok r, empty_world)
       ∧ r = HttpResponseNotAllowed [Http.POST; Http.OPTIONS]
       ∧ (response_status r = 405 ∨ Http.GET = Http.OPTIONS).
Proof.
  apply (only_post_charges test_stripe locmem_backend
           (post_request AnonymousUser [("token", lit "123")]) Http.GET
           empty_world).
  discriminate.
Defined.

(** X15. The admin page asks for a login and nothing more: it is answered
    exactly to an authenticated user on GET or HEAD, superuser or not; a
    requester who is not authenticated is redirected to the login page
    whatever the method, and no request changes the state. *)
Theorem AdminView_asks_for_login_only {S} (login_url : HttpRequest → string)
    (request : HttpRequest) (method : Http.method) (s : S) :
  ((AdminView_dispatch login_url request method s).1
   = Ok (Page "birdie/admin.html")
   ↔ is_authenticated (request_user request) = true
     ∧ (method = Http.GET ∨ method = Http.HEAD))
  ∧ (is_authenticated (request_user request) = false →
     AdminView_dispatch login_url request method s
     = (Ok (Answer (HttpResponseRedirect (login_url request))), s))
  ∧ (∀ first_name is_superuser,
       request_user request = User first_name is_superuser →
       AdminView_dispatch login_url request Http.GET s
       = (Ok (Page "birdie/admin.html"), s))
  ∧ (AdminView_dispatch login_url request method s).2 = s.
Proof.
  unfold AdminView_dispatch.
  destruct (request_user request) as [|first_name is_superuser] eqn:Huser;
    simpl.
  - split_and!; try done. split; [done | by intros [? _]].
  - split_and!; try done.
    + destruct method; run_dispatch; split; try done;
        try (by intros [_ [? | ?]]); intros _; split; eauto.
    + by destruct method.
Qed.

(** X16. The home page is public: whoever asks, GET and HEAD (and no
    other method) are answered with the template "birdie/home.html";
    OPTIONS lists GET, HEAD and OPTIONS, anything else is a 405. *)
Theorem HomeView_is_public {S} (request : HttpRequest)
    (method : Http.method) (s : S) :
  (method = Http.GET ∨ method = Http.HEAD
   ↔ HomeView_dispatch request method s = (Ok (Page "birdie/home.html"), s))
  ∧ (method = Http.OPTIONS
     ↔ HomeView_dispatch request method s
       = (Ok (Allow [Http.GET; Http.HEAD; Http.OPTIONS]), s))
  ∧ (HomeView_dispatch request method s
     = (Ok (HttpResponseNotAllowed [Http.GET; Http.HEAD; Http.OPTIONS]), s)
     ∨ method = Http.GET ∨ method = Http.HEAD ∨ method = Http.OPTIONS).
Proof.
  destruct method; run_dispatch; split_and!;
    try (split; [try done; by intros [? | ?] | try done; eauto]);
    eauto.
Qed.

(** ** birdie/views.py: more on the payment view *)

Section PaymentMore.

Variable Charge_create : World → ChargeArgs → result (gmap string (list N)).
Variable mail_backend : World → EmailMessage → result Z.

(** X17. When the mail backend raises after a charge that succeeded, the
    view raises the backend's exception: the charge has been made (and is
    not undone), the message has been handed to the backend once, and
    nothing is answered. *)
Theorem mail_failure_after_charge (request : HttpRequest) (w : World)
    (charge : gmap string (list N)) (charge_id : str) (e : exn) :
  Charge_create w (charge_args request) = Ok charge →
  charge !! "id" = Some charge_id →
  mail_backend (charged w (charge_args request)) (payment_mail charge_id)
  = Raise e →
  PaymentView_post Charge_create mail_backend request w
  = (Raise e,
     {| charge_calls := charge_calls w ++ [charge_args request];
        outbox := outbox w ++ [payment_mail charge_id] |}).
Proof.
  intros Hcharge Hid Hmail. rewrite PaymentView_post_run. simpl.
  by rewrite Hcharge, Hid, Hmail.
Qed.

(** X18. When the charge service answers without an [id], the view raises
    [KeyError('id')]: the charge call has been made, and no message is
    handed to the mail backend. *)
Theorem charge_without_id (request : HttpRequest) (w : World)
    (charge : gmap string (list N)) :
  Charge_create w (charge_args request) = Ok charge →
  charge !! "id" = None →
  PaymentView_post Charge_create mail_backend request w
  = (Raise (KeyError "id"),
     {| charge_calls := charge_calls w ++ [charge_args request];
        outbox := outbox w |}).
Proof.
  intros Hcharge Hid. rewrite PaymentView_post_run. simpl.
  by rewrite Hcharge, Hid.
Qed.

(** X19. The view answers exactly when the charge service returns a charge
    with an [id] and the mail backend takes the message; the answer is
    then the redirect to "/". *)
Theorem payment_answers_iff (request : HttpRequest) (w : World) :
  (∃ resp w',
     PaymentView_post Charge_create mail_backend request w = (Ok resp, w'))
  ↔ ∃ charge charge_id sent,
      Charge_create w (charge_args request) = Ok charge
      ∧ charge !! "id" = Some charge_id
      ∧ mail_backend (charged w (charge_args request))
          (payment_mail charge_id) = Ok sent.
Proof.
  rewrite PaymentView_post_run. simpl.
  destruct (Charge_create w (charge_args request)) as [charge|e].
  2: { split; [by intros (? & ? & ?) | by intros (? & ? & ? & ? & _)]. }
  destruct (charge !! "id") as [charge_id|] eqn:Hid.
  2: { split; [by intros (? & ? & ?)|].
       intros (? & ? & ? & [= <-] & ? & _). congruence. }
  destruct (mail_backend _ _) as [sent|e] eqn:Hmail.
  - split; [|by eauto]. intros _. by exists charge, charge_id, sent.
  - split; [by intros (? & ? & ?)|].
    intros (? & ? & ? & [= <-] & Hid' & Hmail').
    rewrite Hid in Hid'. injection Hid' as <-. congruence.
Qed.

(** X20. Every request makes at most one attempt to send mail, and makes
    it exactly when the charge service has returned a charge with an
    [id]: the message is then the notification for that [id]. *)
Theorem mail_follows_charge (request : HttpRequest) (w : World) :
  (∃ charge charge_id,
     Charge_create w (charge_args request) = Ok charge
     ∧ charge !! "id" = Some charge_id
     ∧ outbox (PaymentView_post Charge_create mail_backend request w).2
       = outbox w ++ [payment_mail charge_id])
  ∨ ((∀ charge, Charge_create w (charge_args request) = Ok charge →
                charge !! "id" = None)
     ∧ outbox (PaymentView_post Charge_create mail_backend request w).2
       = outbox w).
Proof.
  rewrite PaymentView_post_run. simpl.
  destruct (Charge_create w (charge_args request)) as [charge|e].
  2: { right. by split. }
  destruct (charge !! "id") as [charge_id|] eqn:Hid.
  2: { right. split; [|done]. by intros ? [= <-]. }
  left. exists charge, charge_id. split_and!; try done.
  by destruct (mail_backend _ _).
Qed.

(** X21. Nothing guards against a repeated submission: two requests
    answered one after the other have made two charge calls and handed two
    notifications to the mail backend. *)
Theorem resubmission_charges_twice (request request' : HttpRequest)
    (w w1 w2 : World) (resp resp' : HttpResponse) :
  PaymentView_post Charge_create mail_backend request w = (Ok resp, w1) →
  PaymentView_post Charge_create mail_backend request' w1 = (Ok resp', w2) →
  charge_calls w2
  = charge_calls w ++ [charge_args request; charge_args request']
  ∧ ∃ charge_id charge_id',
      outbox w2
      = outbox w ++ [payment_mail charge_id; payment_mail charge_id'].
Proof.
  assert (∀ r v v' a,
            PaymentView_post Charge_create mail_backend r v = (Ok a, v') →
            charge_calls v' = charge_calls v ++ [charge_args r]
            ∧ ∃ charge_id, outbox v' = outbox v ++ [payment_mail charge_id])
    as Hone.
  { intros r v v' a. rewrite PaymentView_post_run. simpl.
    destruct (Charge_create v (charge_args r)) as [charge|]; [|done].
    destruct (charge !! "id") as [charge_id|]; [|done].
    destruct (mail_backend _ _); [|done].
    intros [= <- <-]. simpl. eauto. }
  intros [Hc1 [id1 Ho1]]%Hone [Hc2 [id2 Ho2]]%Hone.
  rewrite Hc2, Hc1, Ho2, Ho1, <- !app_assoc. simpl. eauto.
Qed.

(** X22. The view does not look at who asks, nor at any field but the
    token: two requests with the same token have the same outcome, down
    to the calls made and the mail sent. *)
Theorem payment_depends_on_token_only (request request' : HttpRequest)
    (w : World) :
  QueryDict_get (POST request) "token"
  = QueryDict_get (POST request') "token" →
  PaymentView_post Charge_create mail_backend request w
  = PaymentView_post Charge_create mail_backend request' w.
Proof.
  intros Htoken. rewrite !PaymentView_post_run.
  assert (charge_args request = charge_args request') as ->; [|done].
  unfold charge_args. by rewrite Htoken.
Qed.

End PaymentMore.

(** X23. The body of the notification determines the charge: it is
    "Charge ", the [id] as it is, and " succeeded!", so the [id] can be
    read back from it and different charges give different bodies. *)
Theorem format_charge_embeds_id (x : str) :
  take (List.length x) (drop 7 (format_charge x)) = x
  ∧ len (format_charge x) = len x + 18
  ∧ lit "Charge " `prefix_of` format_charge x
  ∧ lit " succeeded!" `suffix_of` format_charge x
  ∧ (∀ y, format_charge x = format_charge y → x = y).
Proof.
  unfold format_charge. split_and!.
  - change (drop 7 (lit "Charge " ++ x ++ lit " succeeded!"))
      with (x ++ lit " succeeded!").
    by rewrite take_app_length.
  - unfold len. rewrite !length_app.
    change (List.length (lit "Charge ")) with 7%nat.
    change (List.length (lit " succeeded!")) with 11%nat. lia.
  - by eexists.
  - exists (lit "Charge " ++ x). by rewrite <- app_assoc.
  - intros y Heq. apply (inj (app (lit "Charge "))) in Heq.
    by apply (inj (λ z, z ++ lit " succeeded!")) in Heq.
Qed.

Lemma mail_failure_after_charge_witness :
  PaymentView_post test_stripe refusing_backend
    (post_request AnonymousUser [("token", lit "123")]) empty_world
  = (Raise (ExternalError "smtplib" (lit "Connection refused")),
     {| charge_calls :=
          charge_calls empty_world
          ++ [charge_args
                (post_request AnonymousUser [("token", lit "123")])];
        outbox := outbox empty_world ++ [payment_mail (lit "234")] |}).
Proof.
  apply (mail_failure_after_charge test_stripe refusing_backend
           (post_request AnonymousUser [("token", lit "123")]) empty_world
           {[ "id" := lit "234" ]} (lit "234")); reflexivity.
Defined.

Lemma charge_without_id_witness :
  PaymentView_post idless_stripe locmem_backend
    (post_request AnonymousUser [("token", lit "123")]) empty_world
  = (Raise (KeyError "id"),
     {| charge_calls :=
          charge_calls empty_world
          ++ [charge_args
                (post_request AnonymousUser [("token", lit "123")])];
        outbox := outbox empty_world |}).
Proof.
  apply (charge_without_id idless_stripe locmem_backend
           (post_request AnonymousUser [("token", lit "123")]) empty_world
           {[ "object" := lit "charge" ]}); reflexivity.
Defined.

Lemma resubmission_charges_twice_witness :
  charge_calls
    (mailed (charged (mailed (charged empty_world
       (charge_args (post_request AnonymousUser [("token", lit "123")])))
       (payment_mail (lit "234")))
       (charge_args (post_request AnonymousUser [("token", lit "123")])))
       (payment_mail (lit "234")))
  = charge_calls empty_world
    ++ [charge_args (post_request AnonymousUser [("token", lit "123")]);
        charge_args (post_request AnonymousUser [("token", lit "123")])]
  ∧ ∃ charge_id charge_id',
      outbox
        (mailed (charged (mailed (charged empty_world
           (charge_args (post_request AnonymousUser [("token", lit "123")])))
           (payment_mail (lit "234")))
           (charge_args (post_request AnonymousUser [("token", lit "123")])))
           (payment_mail (lit "234")))
      = outbox empty_world
        ++ [payment_mail charge_id; payment_mail charge_id'].
Proof.
  apply (resubmission_charges_twice test_stripe locmem_backend
           (post_request AnonymousUser [("token", lit "123")])
           (post_request AnonymousUser [("token", lit "123")])
           empty_world
           (mailed (charged empty_world
              (charge_args
                 (post_request AnonymousUser [("token", lit "123")])))
              (payment_mail (lit "234")))
           _ (HttpResponseRedirect "/") (HttpResponseRedirect "/"));
    vm_compute; reflexivity.
Defined.

Lemma payment_depends_on_token_only_witness :
  PaymentView_post test_stripe locmem_backend
    (post_request AnonymousUser [("token", lit "123")]) empty_world
  = PaymentView_post test_stripe locmem_backend
      (post_request (User (lit "Martin") true)
         [("token", lit "123"); ("amount", lit "1")])
      empty_world.
Proof.
  apply (payment_depends_on_token_only test_stripe locmem_backend
           (post_request AnonymousUser [("token", lit "123")])
           (post_request (User (lit "Martin") true)
              [("token", lit "123"); ("amount", lit "1")])
           empty_world).
  vm_compute. reflexivity.
Defined.
